(** * check_ads_tables: the ADS table inspector

    A shallow embedding of [src/utils/check_ads_tables.py].  The script
    opens one psycopg2 connection, runs a fixed series of [SELECT]
    statements, prints what it finds and closes the connection; every
    exception is caught by one top-level [except Exception].

    The embedding has three layers:
    - the tables the script reads and the meaning of the SQL texts it
      sends (the database server, which is not part of the repository);
    - the fragment of Python the script uses (objects, tuples, exceptions,
      [print], the cursor API) as a state-and-exception monad which
      records every externally visible action in a trace;
    - the script itself, statement by statement. *)

From Stdlib Require Import Ascii.
From stdpp Require Import base strings list gmap sorting pretty.

Local Open Scope string_scope.
Local Open Scope Z_scope.
Local Open Scope list_scope.

(** ** Python values as they come out of a psycopg2 cursor *)

Inductive pyobj :=
| PyNone
| PyBool (b : bool)
| PyInt (n : Z)
| PyStr (s : string)
| PyDatetime (t : Z).

(** A result row is a Python tuple. *)
Abbreviation tuple := (list pyobj).

Definition type_name (o : pyobj) : string :=
  match o with
  | PyNone => "NoneType"
  | PyBool _ => "bool"
  | PyInt _ => "int"
  | PyStr _ => "str"
  | PyDatetime _ => "datetime.datetime"
  end.

(** ** Exceptions *)

(** The class of an exception.  [Psycopg2Error] stands for [psycopg2.Error]
    and every subclass of it ([OperationalError], [ProgrammingError], ...):
    which one the driver raises makes no difference to the script, whose
    [except Exception] catches them all and prints [str(e)] only. *)
Inductive exn_class :=
| Psycopg2Error
| TypeError
| IndexError
| ValueError
| KeyboardInterrupt.

Record exn := Exn { exn_class_of : exn_class; exn_str : string }.

(** [isinstance(e, Exception)]: everything but [KeyboardInterrupt], which
    derives from [BaseException] only. *)
Definition is_Exception (e : exn) : bool :=
  match exn_class_of e with
  | KeyboardInterrupt => false
  | _ => true
  end.

(** ** The tables *)

Module Nullifier.
Record row := Row {
  value : pyobj;
  tree_index : Z;
  created_at : Z;
  is_active : bool
}.
Definition to_tuple (r : row) : tuple :=
  [value r; PyInt (tree_index r); PyDatetime (created_at r)].
End Nullifier.

Module AdsStateCommit.
Record row := Row {
  batch_id : pyobj;
  created_at : Z
}.
Definition to_tuple (r : row) : tuple :=
  [batch_id r; PyDatetime (created_at r)].
End AdsStateCommit.

Module TreeState.
Record row := Row {
  tree_id : string;
  total_nullifiers : Z;
  next_available_index : Z;
  updated_at : Z
}.
Definition to_tuple (r : row) : tuple :=
  [PyInt (total_nullifiers r); PyInt (next_available_index r);
   PyDatetime (updated_at r)].
End TreeState.

Module ProofBatch.
Record row := Row {
  id : pyobj;
  transaction_count : Z;
  proof_status : string;
  created_at : Z
}.
Definition to_tuple (r : row) : tuple :=
  [id r; PyInt (transaction_count r); PyStr (proof_status r);
   PyDatetime (created_at r)].
End ProofBatch.

Record database := Database {
  nullifiers : list Nullifier.row;
  ads_state_commits : list AdsStateCommit.row;
  tree_state : list TreeState.row;
  proof_batches : list ProofBatch.row
}.

(** ** The SQL texts of the script, verbatim *)

Definition SQL_NULLIFIER_COUNT : string :=
  "SELECT COUNT(*) FROM nullifiers WHERE is_active = true".
Definition SQL_RECENT_NULLIFIERS : string :=
  "SELECT value, tree_index, created_at FROM nullifiers WHERE is_active = true ORDER BY created_at DESC LIMIT 3".
Definition SQL_COMMIT_COUNT : string :=
  "SELECT COUNT(*) FROM ads_state_commits".
Definition SQL_RECENT_COMMITS : string :=
  "SELECT batch_id, created_at FROM ads_state_commits ORDER BY created_at DESC LIMIT 3".
Definition SQL_TREE_STATE : string :=
  "SELECT total_nullifiers, next_available_index, updated_at FROM tree_state WHERE tree_id = 'default'".
Definition SQL_RECENT_BATCHES : string :=
  "SELECT id, transaction_count, proof_status, created_at FROM proof_batches ORDER BY created_at DESC LIMIT 3".

(** ** What the server answers

    [ORDER BY key DESC]: rows with a larger key come first.  The order of
    rows with equal keys is the engine's choice; the model sorts with a
    merge sort.  The [select_...] functions below are the answers to the six
    statements of the script, table by table; [pg_execute] further down
    computes the answer to a statement from its text, and the lemmas
    [pg_execute_...] show that the two agree. *)

Definition newest_first {A} (key : A → Z) : relation A :=
  λ a b, key b ≤ key a.

Global Instance newest_first_dec {A} (key : A → Z) (a b : A) :
  Decision (newest_first key a b).
Proof. unfold newest_first. apply _. Defined.

Global Instance newest_first_total {A} (key : A → Z) : Total (newest_first key).
Proof. intros a b. unfold newest_first. lia. Qed.

Global Instance newest_first_trans {A} (key : A → Z) :
  Transitive (newest_first key).
Proof. intros a b c. unfold newest_first. lia. Qed.

Definition order_by_desc {A} (key : A → Z) (l : list A) : list A :=
  merge_sort (newest_first key) l.

Definition limit {A} (n : nat) (l : list A) : list A := take n l.

Definition active_nullifiers (d : database) : list Nullifier.row :=
  filter (λ r, Nullifier.is_active r = true) (nullifiers d).

Definition count_star {A} (l : list A) : Z := Z.of_nat (length l).

Definition select_nullifier_count (d : database) : list tuple :=
  [[PyInt (count_star (active_nullifiers d))]].

Definition recent_nullifier_rows (d : database) : list Nullifier.row :=
  limit 3 (order_by_desc Nullifier.created_at (active_nullifiers d)).

Definition select_recent_nullifiers (d : database) : list tuple :=
  Nullifier.to_tuple <$> recent_nullifier_rows d.

Definition select_commit_count (d : database) : list tuple :=
  [[PyInt (count_star (ads_state_commits d))]].

Definition recent_commit_rows (d : database) : list AdsStateCommit.row :=
  limit 3 (order_by_desc AdsStateCommit.created_at (ads_state_commits d)).

Definition select_recent_commits (d : database) : list tuple :=
  AdsStateCommit.to_tuple <$> recent_commit_rows d.

Definition default_tree_rows (d : database) : list TreeState.row :=
  filter (λ r, TreeState.tree_id r = "default") (tree_state d).

Definition select_tree_state (d : database) : list tuple :=
  TreeState.to_tuple <$> default_tree_rows d.

Definition recent_batch_rows (d : database) : list ProofBatch.row :=
  limit 3 (order_by_desc ProofBatch.created_at (proof_batches d)).

Definition select_recent_batches (d : database) : list tuple :=
  ProofBatch.to_tuple <$> recent_batch_rows d.

(** ** A fragment of SQL

    The statements the model of the server understands: a [SELECT] of
    named columns or of a count of rows from one table, with an optional
    [WHERE column = literal], [ORDER BY column DESC] and [LIMIT n]; and a
    [DELETE FROM] one table with an optional [WHERE column = literal].
    Keywords are in upper case and tokens are separated by spaces, as in
    the script. *)

Global Instance pyobj_eq_dec : EqDecision pyobj.
Proof. solve_decision. Defined.

Inductive projection :=
| CountStar
| Columns (cols : list string).

Inductive statement :=
| Select (proj : projection) (table : string) (cond : option (string * pyobj))
         (order : option string) (lim : option nat)
| Delete (table : string) (cond : option (string * pyobj)).

Fixpoint split_on (sep : Ascii.ascii) (s : string) : list string :=
  match s with
  | EmptyString => [EmptyString]
  | String c s' =>
      if decide (c = sep) then EmptyString :: split_on sep s'
      else match split_on sep s' with
           | word :: rest => String c word :: rest
           | [] => [String c EmptyString]
           end
  end.

Definition tokens (sql : string) : list string :=
  filter (λ t, t ≠ "") (split_on " "%char sql).

Definition is_identifier_char (c : Ascii.ascii) : bool :=
  let n := Ascii.nat_of_ascii c in
  ((97 <=? n) && (n <=? 122) || (65 <=? n) && (n <=? 90)
   || (48 <=? n) && (n <=? 57) || (n =? 95))%nat.

Fixpoint all_chars (p : Ascii.ascii → bool) (s : string) : bool :=
  match s with
  | EmptyString => true
  | String c s' => p c && all_chars p s'
  end.

Definition is_identifier (s : string) : bool :=
  negb (String.eqb s "") && all_chars is_identifier_char s.

Definition is_digit (c : Ascii.ascii) : bool :=
  let n := Ascii.nat_of_ascii c in ((48 <=? n) && (n <=? 57))%nat.

Fixpoint parse_nat_go (s : string) (acc : nat) : nat :=
  match s with
  | EmptyString => acc
  | String c s' => parse_nat_go s' (10 * acc + (Ascii.nat_of_ascii c - 48))%nat
  end.

Definition parse_nat (s : string) : option nat :=
  if negb (String.eqb s "") && all_chars is_digit s
  then Some (parse_nat_go s 0%nat) else None.

(** ['text'], without a quote inside. *)
Definition parse_quoted (s : string) : option string :=
  match s with
  | String "'"%char s' =>
      match String.rev s' with
      | String "'"%char body =>
          if all_chars (λ c, negb (Ascii.eqb c "'"%char)) body
          then Some (String.rev body) else None
      | _ => None
      end
  | _ => None
  end.

Definition parse_literal (s : string) : option pyobj :=
  if String.eqb s "true" then Some (PyBool true)
  else if String.eqb s "false" then Some (PyBool false)
  else match parse_nat s with
       | Some n => Some (PyInt (Z.of_nat n))
       | None => PyStr <$> parse_quoted s
       end.

(** The columns of a select list: every name but the last is followed by
    a comma. *)
Fixpoint parse_columns (ts : list string) : option (list string) :=
  match ts with
  | [] => None
  | [t] => if is_identifier t then Some [t] else None
  | t :: ts' =>
      match String.rev t with
      | String ","%char name =>
          if is_identifier (String.rev name)
          then cons (String.rev name) <$> parse_columns ts' else None
      | _ => None
      end
  end.

Definition parse_projection (ts : list string) : option projection :=
  match ts with
  | ["COUNT(*)"] => Some CountStar
  | _ => Columns <$> parse_columns ts
  end.

Fixpoint until_FROM (ts : list string) : option (list string * list string) :=
  match ts with
  | [] => None
  | t :: ts' =>
      if String.eqb t "FROM" then Some ([], ts')
      else '(before, after) ← until_FROM ts'; Some (t :: before, after)
  end.

Definition parse_where (ts : list string)
    : option (option (string * pyobj) * list string) :=
  match ts with
  | "WHERE" :: ts' =>
      match ts' with
      | col :: "=" :: lit :: rest =>
          if is_identifier col
          then v ← parse_literal lit; Some (Some (col, v), rest) else None
      | _ => None
      end
  | _ => Some (None, ts)
  end.

Definition parse_order (ts : list string) : option (option string * list string) :=
  match ts with
  | "ORDER" :: ts' =>
      match ts' with
      | "BY" :: col :: "DESC" :: rest =>
          if is_identifier col then Some (Some col, rest) else None
      | _ => None
      end
  | _ => Some (None, ts)
  end.

Definition parse_limit (ts : list string) : option (option nat * list string) :=
  match ts with
  | "LIMIT" :: ts' =>
      match ts' with
      | n :: rest => k ← parse_nat n; Some (Some k, rest)
      | [] => None
      end
  | _ => Some (None, ts)
  end.

Definition parse_select (ts : list string) : option statement :=
  '(cols, ts) ← until_FROM ts;
  proj ← parse_projection cols;
  match ts with
  | table :: ts =>
      if is_identifier table then
        '(cond, ts) ← parse_where ts;
        '(order, ts) ← parse_order ts;
        '(lim, ts) ← parse_limit ts;
        match ts with
        | [] => Some (Select proj table cond order lim)
        | _ => None
        end
      else None
  | [] => None
  end.

Definition parse_delete (ts : list string) : option statement :=
  match ts with
  | "FROM" :: table :: ts =>
      if is_identifier table then
        '(cond, ts) ← parse_where ts;
        match ts with
        | [] => Some (Delete table cond)
        | _ => None
        end
      else None
  | _ => None
  end.

Definition parse (sql : string) : option statement :=
  match tokens sql with
  | "SELECT" :: ts => parse_select ts
  | "DELETE" :: ts => parse_delete ts
  | _ => None
  end.

(** The columns of each table, by name. *)
Definition nullifier_column (name : string) : option (Nullifier.row → pyobj) :=
  if String.eqb name "value" then Some Nullifier.value
  else if String.eqb name "tree_index" then Some (λ r, PyInt (Nullifier.tree_index r))
  else if String.eqb name "created_at" then Some (λ r, PyDatetime (Nullifier.created_at r))
  else if String.eqb name "is_active" then Some (λ r, PyBool (Nullifier.is_active r))
  else None.

Definition commit_column (name : string) : option (AdsStateCommit.row → pyobj) :=
  if String.eqb name "batch_id" then Some AdsStateCommit.batch_id
  else if String.eqb name "created_at"
       then Some (λ r, PyDatetime (AdsStateCommit.created_at r))
  else None.

Definition tree_column (name : string) : option (TreeState.row → pyobj) :=
  if String.eqb name "tree_id" then Some (λ r, PyStr (TreeState.tree_id r))
  else if String.eqb name "total_nullifiers"
       then Some (λ r, PyInt (TreeState.total_nullifiers r))
  else if String.eqb name "next_available_index"
       then Some (λ r, PyInt (TreeState.next_available_index r))
  else if String.eqb name "updated_at" then Some (λ r, PyDatetime (TreeState.updated_at r))
  else None.

Definition batch_column (name : string) : option (ProofBatch.row → pyobj) :=
  if String.eqb name "id" then Some ProofBatch.id
  else if String.eqb name "transaction_count"
       then Some (λ r, PyInt (ProofBatch.transaction_count r))
  else if String.eqb name "proof_status" then Some (λ r, PyStr (ProofBatch.proof_status r))
  else if String.eqb name "created_at" then Some (λ r, PyDatetime (ProofBatch.created_at r))
  else None.

(** The number a value is ordered by. *)
Definition sort_key (o : pyobj) : Z :=
  match o with
  | PyInt n => n
  | PyDatetime t => t
  | PyBool b => Z.b2z b
  | _ => 0
  end.

Section table.
Context {R : Type} (column : string → option (R → pyobj)).

(** [WHERE column = literal] *)
Definition where_rows (cond : option (string * pyobj)) (rows : list R)
    : option (list R) :=
  match cond with
  | None => Some rows
  | Some (c, v) => f ← column c; Some (filter (λ r, f r = v) rows)
  end.

Definition order_rows (order : option string) (rows : list R) : option (list R) :=
  match order with
  | None => Some rows
  | Some c => f ← column c; Some (order_by_desc (λ r, sort_key (f r)) rows)
  end.

Definition limit_rows {A} (lim : option nat) (rows : list A) : list A :=
  match lim with
  | None => rows
  | Some n => limit n rows
  end.

Definition run_select (proj : projection) (cond : option (string * pyobj))
    (order : option string) (lim : option nat) (rows : list R) : option (list tuple) :=
  kept ← where_rows cond rows;
  match proj with
  | CountStar => Some (limit_rows lim [[PyInt (count_star kept)]])
  | Columns cols =>
      fs ← mapM column cols;
      sorted ← order_rows order kept;
      Some ((λ r, (λ f, f r) <$> fs) <$> limit_rows lim sorted)
  end.

(** The rows a [DELETE] leaves. *)
Definition run_delete (cond : option (string * pyobj)) (rows : list R)
    : option (list R) :=
  match cond with
  | None => Some []
  | Some (c, v) => f ← column c; Some (filter (λ r, f r ≠ v) rows)
  end.

End table.

Definition exec_select (d : database) (proj : projection) (table : string)
    (cond : option (string * pyobj)) (order : option string) (lim : option nat)
    : option (list tuple) :=
  if String.eqb table "nullifiers"
  then run_select nullifier_column proj cond order lim (nullifiers d)
  else if String.eqb table "ads_state_commits"
  then run_select commit_column proj cond order lim (ads_state_commits d)
  else if String.eqb table "tree_state"
  then run_select tree_column proj cond order lim (tree_state d)
  else if String.eqb table "proof_batches"
  then run_select batch_column proj cond order lim (proof_batches d)
  else None.

Definition exec_delete (d : database) (table : string) (cond : option (string * pyobj))
    : option database :=
  if String.eqb table "nullifiers"
  then rows ← run_delete nullifier_column cond (nullifiers d);
       Some (Database rows (ads_state_commits d) (tree_state d) (proof_batches d))
  else if String.eqb table "ads_state_commits"
  then rows ← run_delete commit_column cond (ads_state_commits d);
       Some (Database (nullifiers d) rows (tree_state d) (proof_batches d))
  else if String.eqb table "tree_state"
  then rows ← run_delete tree_column cond (tree_state d);
       Some (Database (nullifiers d) (ads_state_commits d) rows (proof_batches d))
  else if String.eqb table "proof_batches"
  then rows ← run_delete batch_column cond (proof_batches d);
       Some (Database (nullifiers d) (ads_state_commits d) (tree_state d) rows)
  else None.

(** What the server does with a statement: its answer, and the content
    of the tables afterwards.  A text outside the fragment, or one that
    names a table or column that does not exist, is refused. *)
Definition pg_execute (d : database) (sql : string) : (exn + list tuple) * database :=
  match parse sql with
  | Some (Select proj table cond order lim) =>
      match exec_select d proj table cond order lim with
      | Some rows => (inr rows, d)
      | None => (inl (Exn Psycopg2Error "undefined table or column"), d)
      end
  | Some (Delete table cond) =>
      match exec_delete d table cond with
      | Some d' => (inr [], d')
      | None => (inl (Exn Psycopg2Error "undefined table or column"), d)
      end
  | None => (inl (Exn Psycopg2Error "syntax error"), d)
  end.

(** ** The world the script runs in

    [environ] is [os.environ]; [connect_error] is the message of the
    exception [psycopg2.connect] raises, if it raises; [execute_error k]
    is the message of the exception the [k]-th call of [cur.execute]
    (counted from 0) raises, if it raises; [db] is the content of the
    tables when the run starts, which only the statements of the run can
    change.  Every stored value is taken to convert to a Python object:
    no column is [NULL] and every timestamp is one [datetime] can hold. *)
Record world := World {
  environ : gmap string string;
  connect_error : option string;
  execute_error : nat → option string;
  db : database
}.

(** ** The Python the script uses

    Everything the script does that can be seen from outside is an
    [event]; [trace] lists the events in the order they happen. *)

Inductive event :=
| Connect (dsn : string)
| Cursor
| Execute (sql : string)
| Print (line : string)
| CursorClose
| ConnectionClose.

Global Instance event_eq_dec : EqDecision event.
Proof. solve_decision. Defined.

(** The variables the script assigns inside its [try] block; [None] while
    a variable is unbound. *)
Module Var.
Record t := Make {
  nullifier_count : option pyobj;
  recent_nullifiers : option (list tuple);
  commit_count : option pyobj;
  recent_commits : option (list tuple);
  tree_state : option (option tuple);
  recent_batches : option (list tuple)
}.
Definition unbound : t := Make None None None None None None.
Definition set_nullifier_count (v : pyobj) (g : t) : t :=
  Make (Some v) (recent_nullifiers g) (commit_count g) (recent_commits g)
       (tree_state g) (recent_batches g).
Definition set_recent_nullifiers (v : list tuple) (g : t) : t :=
  Make (nullifier_count g) (Some v) (commit_count g) (recent_commits g)
       (tree_state g) (recent_batches g).
Definition set_commit_count (v : pyobj) (g : t) : t :=
  Make (nullifier_count g) (recent_nullifiers g) (Some v) (recent_commits g)
       (tree_state g) (recent_batches g).
Definition set_recent_commits (v : list tuple) (g : t) : t :=
  Make (nullifier_count g) (recent_nullifiers g) (commit_count g) (Some v)
       (tree_state g) (recent_batches g).
Definition set_tree_state (v : option tuple) (g : t) : t :=
  Make (nullifier_count g) (recent_nullifiers g) (commit_count g)
       (recent_commits g) (Some v) (recent_batches g).
Definition set_recent_batches (v : list tuple) (g : t) : t :=
  Make (nullifier_count g) (recent_nullifiers g) (commit_count g)
       (recent_commits g) (tree_state g) (Some v).
End Var.

(** [executes] counts the calls of [cur.execute] so far; [fetched] is the
    cursor's buffer of rows not yet fetched; [server] is the content of
    the tables as the connection sees it. *)
Record state := State {
  trace : list event;
  executes : nat;
  fetched : list tuple;
  vars : Var.t;
  server : database
}.

Definition initial (w : world) : state := State [] 0%nat [] Var.unbound (db w).

(** A statement either completes with a value or raises. *)
Definition M (A : Type) : Type := state → (exn + A) * state.

Global Instance M_ret : MRet M := λ A x s, (inr x, s).
Global Instance M_bind : MBind M := λ A B f m s,
  match m s with
  | (inr x, s') => f x s'
  | (inl e, s') => (inl e, s')
  end.

Definition raise {A} (e : exn) : M A := λ s, (inl e, s).

Definition emit (ev : event) : M unit := λ s,
  (inr (), State (trace s ++ [ev]) (executes s) (fetched s) (vars s) (server s)).

Definition assign (f : Var.t → Var.t) : M unit := λ s,
  (inr (), State (trace s) (executes s) (fetched s) (f (vars s)) (server s)).

Definition print (line : string) : M unit := emit (Print line).

(** [try: body except Exception as e: handler e] *)
Definition try_except (body : M unit) (handler : exn → M unit) : M unit := λ s,
  match body s with
  | (inl e, s') => if is_Exception e then handler e s' else (inl e, s')
  | r => r
  end.

(** [for x in l: f x] *)
Fixpoint for_each {A} (l : list A) (f : A → M unit) : M unit :=
  match l with
  | [] => mret ()
  | x :: l' => f x;; for_each l' f
  end.

(** [row[0]] on what [fetchone] returned. *)
Definition subscript0 (row : option tuple) : M pyobj :=
  match row with
  | None => raise (Exn TypeError "'NoneType' object is not subscriptable")
  | Some [] => raise (Exn IndexError "tuple index out of range")
  | Some (x :: _) => mret x
  end.

(** [o > 0] *)
Definition gt_zero (o : pyobj) : M bool :=
  match o with
  | PyInt n => mret (bool_decide (n > 0))
  | PyBool b => mret b
  | _ => raise (Exn TypeError
           ("'>' not supported between instances of '" +:+ type_name o +:+ "' and 'int'"))
  end.

(** Truth value of what [fetchone] returned: [None] and the empty tuple
    are false. *)
Definition truthy (row : option tuple) : bool :=
  match row with
  | None | Some [] => false
  | Some (_ :: _) => true
  end.

Definition unpack_error {A} (want : nat) (t : tuple) : M A :=
  raise (Exn ValueError
    (if decide (length t < want)%nat
     then "not enough values to unpack (expected " +:+ pretty want +:+ ", got "
          +:+ pretty (length t) +:+ ")"
     else "too many values to unpack (expected " +:+ pretty want +:+ ")")).

Definition unpack2 (t : tuple) : M (pyobj * pyobj) :=
  match t with
  | [a; b] => mret (a, b)
  | _ => unpack_error 2 t
  end.

Definition unpack3 (t : tuple) : M (pyobj * pyobj * pyobj) :=
  match t with
  | [a; b; c] => mret (a, b, c)
  | _ => unpack_error 3 t
  end.

Definition unpack4 (t : tuple) : M (pyobj * pyobj * pyobj * pyobj) :=
  match t with
  | [a; b; c; d] => mret (a, b, c, d)
  | _ => unpack_error 4 t
  end.

(** ** The script *)

Definition DEFAULT_DATABASE_URL : string :=
  "postgres://postgres@localhost:5432/postgres".

Section Script.

(** [str] of a [datetime.datetime], which the script leaves to Python. *)
Variable str_datetime : Z → string.

Variable w : world.

(** [str(o)], as an f-string formats a value. *)
Definition str (o : pyobj) : string :=
  match o with
  | PyNone => "None"
  | PyBool true => "True"
  | PyBool false => "False"
  | PyInt n => pretty n
  | PyStr s => s
  | PyDatetime t => str_datetime t
  end.

(** [psycopg2.connect(dsn)] *)
Definition psycopg2_connect (dsn : string) : M unit :=
  emit (Connect dsn);;
  match connect_error w with
  | Some msg => raise (Exn Psycopg2Error msg)
  | None => mret ()
  end.

(** [conn.cursor()] *)
Definition conn_cursor : M unit := emit Cursor.

(** [cur.execute(sql)]: the statement goes to the server, which fails or
    fills the cursor's buffer with the rows of the answer. *)
Definition cur_execute (sql : string) : M unit := λ s,
  let s1 := State (trace s ++ [Execute sql]) (S (executes s)) [] (vars s) (server s) in
  match execute_error w (executes s) with
  | Some msg => (inl (Exn Psycopg2Error msg), s1)
  | None =>
      match pg_execute (server s) sql with
      | (inl e, d) => (inl e, State (trace s1) (executes s1) [] (vars s1) d)
      | (inr rows, d) => (inr (), State (trace s1) (executes s1) rows (vars s1) d)
      end
  end.

(** [cur.fetchone()] *)
Definition cur_fetchone : M (option tuple) := λ s,
  match fetched s with
  | [] => (inr None, s)
  | r :: rest => (inr (Some r), State (trace s) (executes s) rest (vars s) (server s))
  end.

(** [cur.fetchall()] *)
Definition cur_fetchall : M (list tuple) := λ s,
  (inr (fetched s), State (trace s) (executes s) [] (vars s) (server s)).

Definition cur_close : M unit := emit CursorClose.
Definition conn_close : M unit := emit ConnectionClose.

(** Line 9: [os.environ.get('DATABASE_URL', ...)]. *)
Definition database_url : string :=
  default DEFAULT_DATABASE_URL (environ w !! "DATABASE_URL").

(** Lines 18-28. *)
Definition check_nullifiers : M unit :=
  cur_execute SQL_NULLIFIER_COUNT;;
  row ← cur_fetchone;
  nullifier_count ← subscript0 row;
  assign (Var.set_nullifier_count nullifier_count);;
  print ("📊 Active nullifiers: " +:+ str nullifier_count);;
  positive ← gt_zero nullifier_count;
  if positive : bool then
    cur_execute SQL_RECENT_NULLIFIERS;;
    recent_nullifiers ← cur_fetchall;
    assign (Var.set_recent_nullifiers recent_nullifiers);;
    print "📝 Recent nullifiers:";;
    for_each recent_nullifiers (λ t,
      '(value, tree_index, created_at) ← unpack3 t;
      print ("   Value: " +:+ str value +:+ ", Tree Index: " +:+ str tree_index
             +:+ ", Created: " +:+ str created_at))
  else mret ().

(** Lines 30-40. *)
Definition check_ads_state_commits : M unit :=
  cur_execute SQL_COMMIT_COUNT;;
  row ← cur_fetchone;
  commit_count ← subscript0 row;
  assign (Var.set_commit_count commit_count);;
  print ("📊 ADS state commits: " +:+ str commit_count);;
  positive ← gt_zero commit_count;
  if positive : bool then
    cur_execute SQL_RECENT_COMMITS;;
    recent_commits ← cur_fetchall;
    assign (Var.set_recent_commits recent_commits);;
    print "📝 Recent ADS commits:";;
    for_each recent_commits (λ t,
      '(batch_id, created_at) ← unpack2 t;
      print ("   Batch ID: " +:+ str batch_id +:+ ", Created: " +:+ str created_at))
  else mret ().

(** Lines 42-49. *)
Definition check_tree_state : M unit :=
  cur_execute SQL_TREE_STATE;;
  tree_state ← cur_fetchone;
  assign (Var.set_tree_state tree_state);;
  if truthy tree_state then
    '(total_nullifiers, next_index, updated_at) ← unpack3 (default [] tree_state);
    print ("📊 Tree state: " +:+ str total_nullifiers +:+ " nullifiers, next index: "
           +:+ str next_index +:+ ", updated: " +:+ str updated_at)
  else
    print "❌ No default tree state found".

(** Lines 51-56. *)
Definition check_recent_batches : M unit :=
  cur_execute SQL_RECENT_BATCHES;;
  recent_batches ← cur_fetchall;
  assign (Var.set_recent_batches recent_batches);;
  print "📝 Recent batches:";;
  for_each recent_batches (λ t,
    '(batch_id, tx_count, status, created_at) ← unpack4 t;
    print ("   Batch " +:+ str batch_id +:+ ": " +:+ str tx_count +:+ " txns, status: "
           +:+ str status +:+ ", created: " +:+ str created_at)).

(** Lines 12-59: the body of the [try]. *)
Definition try_body : M unit :=
  psycopg2_connect database_url;;
  conn_cursor;;
  print "🔍 Checking ADS table contents...";;
  check_nullifiers;;
  check_ads_state_commits;;
  check_tree_state;;
  check_recent_batches;;
  cur_close;;
  conn_close.

(** Lines 61-63: the handler. *)
Definition except_handler (e : exn) : M unit :=
  print ("❌ Error connecting to database: " +:+ exn_str e);;
  print ("💡 Make sure DATABASE_URL is set correctly: " +:+ database_url).

(** Lines 11-63. *)
Definition script : M unit := try_except try_body except_handler.

(** Running the file as a process: the interpreter exits with status 0
    when the module's code runs to its end and with status 1 when an
    exception leaves it. *)
Record outcome := Outcome { exit_code : Z; final : state }.

Definition main : outcome :=
  match script (initial w) with
  | (inr _, s) => Outcome 0 s
  | (inl _, s) => Outcome 1 s
  end.

End Script.

(** What a run wrote to standard output, and the statements it sent. *)
Definition stdout (tr : list event) : list string :=
  omap (λ ev, match ev with Print line => Some line | _ => None end) tr.

Definition statements (tr : list event) : list string :=
  omap (λ ev, match ev with Execute sql => Some sql | _ => None end) tr.

(** * The run in closed form

    The definitions below say what a run prints, sends and assigns without
    running the script; [script_run] proves that the script does exactly
    that. *)

(** ** One line of output per row *)

Definition nullifier_line (sd : Z → string) (r : Nullifier.row) : string :=
  "   Value: " +:+ str sd (Nullifier.value r) +:+ ", Tree Index: "
  +:+ pretty (Nullifier.tree_index r) +:+ ", Created: " +:+ sd (Nullifier.created_at r).

Definition commit_line (sd : Z → string) (r : AdsStateCommit.row) : string :=
  "   Batch ID: " +:+ str sd (AdsStateCommit.batch_id r) +:+ ", Created: "
  +:+ sd (AdsStateCommit.created_at r).

Definition tree_line (sd : Z → string) (r : TreeState.row) : string :=
  "📊 Tree state: " +:+ pretty (TreeState.total_nullifiers r)
  +:+ " nullifiers, next index: " +:+ pretty (TreeState.next_available_index r)
  +:+ ", updated: " +:+ sd (TreeState.updated_at r).

Definition batch_line (sd : Z → string) (r : ProofBatch.row) : string :=
  "   Batch " +:+ str sd (ProofBatch.id r) +:+ ": "
  +:+ pretty (ProofBatch.transaction_count r) +:+ " txns, status: "
  +:+ ProofBatch.proof_status r +:+ ", created: " +:+ sd (ProofBatch.created_at r).

(** ** Statements, assignments and events of a run without failures

    [plan d] lists the statements such a run sends, in order;
    [assignments d] lists, in the same order, the variable each statement's
    answer is stored in. *)

Definition plan (d : database) : list string :=
  [SQL_NULLIFIER_COUNT]
  ++ (if bool_decide (count_star (active_nullifiers d) > 0)
      then [SQL_RECENT_NULLIFIERS] else [])
  ++ [SQL_COMMIT_COUNT]
  ++ (if bool_decide (count_star (ads_state_commits d) > 0)
      then [SQL_RECENT_COMMITS] else [])
  ++ [SQL_TREE_STATE; SQL_RECENT_BATCHES].

Definition assignments (d : database) : list (Var.t → Var.t) :=
  [Var.set_nullifier_count (PyInt (count_star (active_nullifiers d)))]
  ++ (if bool_decide (count_star (active_nullifiers d) > 0)
      then [Var.set_recent_nullifiers (select_recent_nullifiers d)] else [])
  ++ [Var.set_commit_count (PyInt (count_star (ads_state_commits d)))]
  ++ (if bool_decide (count_star (ads_state_commits d) > 0)
      then [Var.set_recent_commits (select_recent_commits d)] else [])
  ++ [Var.set_tree_state (head (select_tree_state d));
      Var.set_recent_batches (select_recent_batches d)].

(** The events of lines 18-28, 30-40, 42-49 and 51-56. *)

Definition nullifier_section (sd : Z → string) (d : database) : list event :=
  [Execute SQL_NULLIFIER_COUNT;
   Print ("📊 Active nullifiers: " +:+ pretty (count_star (active_nullifiers d)))]
  ++ (if bool_decide (count_star (active_nullifiers d) > 0)
      then [Execute SQL_RECENT_NULLIFIERS; Print "📝 Recent nullifiers:"]
           ++ (Print ∘ nullifier_line sd <$> recent_nullifier_rows d)
      else []).

Definition commit_section (sd : Z → string) (d : database) : list event :=
  [Execute SQL_COMMIT_COUNT;
   Print ("📊 ADS state commits: " +:+ pretty (count_star (ads_state_commits d)))]
  ++ (if bool_decide (count_star (ads_state_commits d) > 0)
      then [Execute SQL_RECENT_COMMITS; Print "📝 Recent ADS commits:"]
           ++ (Print ∘ commit_line sd <$> recent_commit_rows d)
      else []).

Definition tree_section (sd : Z → string) (d : database) : list event :=
  [Execute SQL_TREE_STATE;
   Print (match default_tree_rows d with
          | r :: _ => tree_line sd r
          | [] => "❌ No default tree state found"
          end)].

Definition batch_section (sd : Z → string) (d : database) : list event :=
  [Execute SQL_RECENT_BATCHES; Print "📝 Recent batches:"]
  ++ (Print ∘ batch_line sd <$> recent_batch_rows d).

(** The events of a whole run in which nothing fails. *)
Definition full_trace (sd : Z → string) (w : world) : list event :=
  [Connect (database_url w); Cursor; Print "🔍 Checking ADS table contents..."]
  ++ nullifier_section sd (db w) ++ commit_section sd (db w)
  ++ tree_section sd (db w) ++ batch_section sd (db w)
  ++ [CursorClose; ConnectionClose].

(** The two lines of the [except] handler. *)
Definition handler_lines (w : world) (msg : string) : list event :=
  [Print ("❌ Error connecting to database: " +:+ msg);
   Print ("💡 Make sure DATABASE_URL is set correctly: " +:+ database_url w)].

(** ** Runs that fail

    The first of the calls [from], [from + 1], ..., [from + n - 1] of
    [cur.execute] that fails, with its message. *)
Fixpoint first_error (f : nat → option string) (from n : nat) : option (nat * string) :=
  match n with
  | O => None
  | S n' =>
      match f from with
      | Some msg => Some (from, msg)
      | None => first_error f (S from) n'
      end
  end.

(** The events of [l] up to and including its [k]-th [Execute], counted
    from 0. *)
Fixpoint through_execute (l : list event) (k : nat) : list event :=
  match l with
  | [] => []
  | Execute sql :: l' =>
      match k with
      | O => [Execute sql]
      | S k' => Execute sql :: through_execute l' k'
      end
  | ev :: l' => ev :: through_execute l' k
  end.

(** The events of any run.  When [psycopg2.connect] raises, the handler
    follows at once.  When the [k]-th statement is the first to fail, the
    run is the one without failures up to that statement, and the handler
    follows.  Statements past the end of the plan are never sent, so their
    failures do not count. *)
Definition expected_trace (sd : Z → string) (w : world) : list event :=
  match connect_error w with
  | Some msg => Connect (database_url w) :: handler_lines w msg
  | None =>
      match first_error (execute_error w) 0 (length (plan (db w))) with
      | Some (k, msg) => through_execute (full_trace sd w) k ++ handler_lines w msg
      | None => full_trace sd w
      end
  end.

(** The variables bound at the end of any run. *)
Definition expected_vars (w : world) : Var.t :=
  match connect_error w with
  | Some _ => Var.unbound
  | None =>
      match first_error (execute_error w) 0 (length (plan (db w))) with
      | Some (k, _) => foldl (λ g f, f g) Var.unbound (take k (assignments (db w)))
      | None => foldl (λ g f, f g) Var.unbound (assignments (db w))
      end
  end.

(** The result of a [cur.execute] that raises. *)
Definition failed (sql msg : string) (s : state) : (exn + ()) * state :=
  (inl (Exn Psycopg2Error msg),
   State (trace s ++ [Execute sql]) (S (executes s)) [] (vars s) (server s)).

(** The message of the exception that ends the [try] block, if any. *)
Definition failure (w : world) : option string :=
  match connect_error w with
  | Some msg => Some msg
  | None => snd <$> first_error (execute_error w) 0 (length (plan (db w)))
  end.

(** The exception the [try] block of the script raises, if it raises:
    read off the script itself. *)
Definition raised (sd : Z → string) (w : world) : option exn :=
  match (try_body sd w (initial w)).1 with
  | inl e => Some e
  | inr _ => None
  end.

(** ** Sample worlds *)

Definition never (_ : nat) : option string := None.

Definition empty_db : database := Database [] [] [] [].

Definition demo_db : database :=
  Database
    [Nullifier.Row (PyInt 11) 0 100 true; Nullifier.Row (PyInt 12) 1 300 true;
     Nullifier.Row (PyInt 13) 2 200 false; Nullifier.Row (PyInt 14) 3 250 true;
     Nullifier.Row (PyInt 15) 4 50 true]
    [AdsStateCommit.Row (PyInt 1) 10; AdsStateCommit.Row (PyInt 2) 20]
    [TreeState.Row "default" 5 5 400]
    [ProofBatch.Row (PyInt 1) 2 "pending" 10; ProofBatch.Row (PyInt 2) 3 "proven" 30;
     ProofBatch.Row (PyInt 3) 1 "failed" 20; ProofBatch.Row (PyInt 4) 7 "pending" 40].

(** A reachable server that never fails. *)
Definition quiet (d : database) : world := World ∅ None never d.

(** A server that refuses the connection. *)
Definition unreachable : world :=
  World {["DATABASE_URL" := "postgres://ads@db.internal:5432/ads"]}
        (Some "connection refused") never demo_db.

(** A server that drops the connection at the third statement. *)
Definition flaky : world :=
  World ∅ None
        (λ k, if decide (k = 2%nat)
              then Some "server closed the connection unexpectedly" else None)
        demo_db.

(** ** Properties the claims speak of

    The shape of a detail result: the tuples of at most three
    rows of the table, newest first. *)
Definition recent_of {A} (key : A → Z) (to_tuple : A → tuple) (table : list A)
    (result : list tuple) : Prop :=
  ∃ rows, result = to_tuple <$> rows
          ∧ (length result ≤ 3)%nat
          ∧ StronglySorted (newest_first key) rows
          ∧ rows ⊆ table.

(** [needle] occurs in [hay]. *)
Definition contains (needle hay : string) : Prop :=
  ∃ pre post, hay = pre +:+ needle +:+ post.

(** A statement that only reads: the server takes it for a [SELECT] of
    the fragment, which has no [INTO], no [FOR UPDATE], no function call
    and no second statement. *)
Definition read_only (sql : string) : bool :=
  match parse sql with
  | Some (Select _ _ _ _ _) => true
  | _ => false
  end.

(** What a run does besides handling its connection and reading: the
    lines it prints, and the statements it sends that are not
    [read_only]. *)
Definition side_effects (tr : list event) : list event :=
  omap (λ ev, match ev with
              | Print _ => Some ev
              | Execute sql => if read_only sql then None else Some ev
              | Connect _ | Cursor | CursorClose | ConnectionClose => None
              end) tr.

(** What a run does besides printing. *)
Definition actions (tr : list event) : list event :=
  omap (λ ev, match ev with Print _ => None | _ => Some ev end) tr.

(** The same world with a server that never fails. *)
Definition without_failures (w : world) : world :=
  World (environ w) None never (db w).

(** ** Properties beyond the claims *)

(** [result] is the tuples of the [min 3 (length table)] rows of [table]
    with the largest keys: no row left out is newer than a row taken. *)
Definition newest_of {A} (key : A → Z) (to_tuple : A → tuple) (table : list A)
    (result : list tuple) : Prop :=
  ∃ rows rest,
    result = to_tuple <$> rows
    ∧ table ≡ₚ rows ++ rest
    ∧ length rows = (3 `min` length table)%nat
    ∧ ∀ r r', r ∈ rows → r' ∈ rest → key r' ≤ key r.


(** * Verification *)

(** ** Running the monad *)

Lemma bind_run {A B} (m : M A) (f : A → M B) (s : state) :
  (m ≫= f) s =
  match m s with
  | (inr x, s') => f x s'
  | (inl e, s') => (inl e, s')
  end.
Proof. reflexivity. Qed.

Lemma for_each_print {A B} (g : A → B) (fmt : A → string) (f : B → M unit) (l : list A) :
  (∀ x s, f (g x) s = print (fmt x) s) →
  ∀ s, for_each (g <$> l) f s =
       (inr (), State (trace s ++ (Print ∘ fmt <$> l)) (executes s) (fetched s) (vars s)
                      (server s)).
Proof.
  intros Hf. induction l as [|x l IH]; intros s; cbn.
  - rewrite app_nil_r. by destruct s.
  - rewrite bind_run, Hf. cbn. rewrite IH. cbn.
    by rewrite <- app_assoc.
Qed.

(** ** The server answers each statement of the script *)

Lemma pg_execute_nullifier_count d :
  pg_execute d SQL_NULLIFIER_COUNT = (inr (select_nullifier_count d), d).
Proof.
  unfold pg_execute.
  replace (parse SQL_NULLIFIER_COUNT)
    with (Some (Select CountStar "nullifiers" (Some ("is_active", PyBool true))
                       None None)) by (by vm_compute).
  change (exec_select d CountStar "nullifiers" (Some ("is_active", PyBool true)) None None)
    with (Some [[PyInt (count_star (filter (λ r, PyBool (Nullifier.is_active r) = PyBool true) (nullifiers d)))]]).
  unfold select_nullifier_count, active_nullifiers.
  rewrite (list_filter_iff _ (λ r, Nullifier.is_active r = true)); [done|].
  intros r. split; congruence.
Qed.

Lemma pg_execute_recent_nullifiers d :
  pg_execute d SQL_RECENT_NULLIFIERS = (inr (select_recent_nullifiers d), d).
Proof.
  unfold pg_execute.
  replace (parse SQL_RECENT_NULLIFIERS)
    with (Some (Select (Columns ["value"; "tree_index"; "created_at"]) "nullifiers"
                       (Some ("is_active", PyBool true)) (Some "created_at")
                       (Some 3%nat))) by (by vm_compute).
  change (exec_select d _ _ _ _ _)
    with (Some (Nullifier.to_tuple
                  <$> limit 3 (order_by_desc Nullifier.created_at
                                 (filter (λ r, PyBool (Nullifier.is_active r) = PyBool true)
                                         (nullifiers d))))).
  unfold select_recent_nullifiers, recent_nullifier_rows, active_nullifiers.
  rewrite (list_filter_iff _ (λ r, Nullifier.is_active r = true)); [done|].
  intros r. split; congruence.
Qed.

Lemma pg_execute_commit_count d :
  pg_execute d SQL_COMMIT_COUNT = (inr (select_commit_count d), d).
Proof.
  unfold pg_execute.
  replace (parse SQL_COMMIT_COUNT)
    with (Some (Select CountStar "ads_state_commits" None None None))
    by (by vm_compute).
  reflexivity.
Qed.

Lemma pg_execute_recent_commits d :
  pg_execute d SQL_RECENT_COMMITS = (inr (select_recent_commits d), d).
Proof.
  unfold pg_execute.
  replace (parse SQL_RECENT_COMMITS)
    with (Some (Select (Columns ["batch_id"; "created_at"]) "ads_state_commits"
                       None (Some "created_at") (Some 3%nat))) by (by vm_compute).
  reflexivity.
Qed.

Lemma pg_execute_tree_state d :
  pg_execute d SQL_TREE_STATE = (inr (select_tree_state d), d).
Proof.
  unfold pg_execute.
  replace (parse SQL_TREE_STATE)
    with (Some (Select (Columns ["total_nullifiers"; "next_available_index";
                                 "updated_at"])
                       "tree_state" (Some ("tree_id", PyStr "default")) None None))
    by (by vm_compute).
  change (exec_select d _ _ _ _ _)
    with (Some (TreeState.to_tuple
                  <$> filter (λ r, PyStr (TreeState.tree_id r) = PyStr "default")
                             (tree_state d))).
  unfold select_tree_state, default_tree_rows.
  rewrite (list_filter_iff _ (λ r, TreeState.tree_id r = "default")); [done|].
  intros r. split; congruence.
Qed.

Lemma pg_execute_recent_batches d :
  pg_execute d SQL_RECENT_BATCHES = (inr (select_recent_batches d), d).
Proof.
  unfold pg_execute.
  replace (parse SQL_RECENT_BATCHES)
    with (Some (Select (Columns ["id"; "transaction_count"; "proof_status";
                                 "created_at"])
                       "proof_batches" None (Some "created_at") (Some 3%nat)))
    by (by vm_compute).
  reflexivity.
Qed.

Lemma cur_execute_run w sql rows s :
  pg_execute (server s) sql = (inr rows, server s) →
  cur_execute w sql s =
  match execute_error w (executes s) with
  | Some msg => failed sql msg s
  | None =>
      (inr (), State (trace s ++ [Execute sql]) (S (executes s)) rows (vars s) (server s))
  end.
Proof. intros H. unfold cur_execute. rewrite H. by destruct (execute_error _ _). Qed.

(** ** The four blocks of the [try] body, from any state *)

Lemma check_nullifiers_run sd w s :
  check_nullifiers sd w s =
  match execute_error w (executes s) with
  | Some msg => failed SQL_NULLIFIER_COUNT msg s
  | None =>
      let n := count_star (active_nullifiers (server s)) in
      let s1 := State (trace s ++ [Execute SQL_NULLIFIER_COUNT;
                                   Print ("📊 Active nullifiers: " +:+ pretty n)])
                      (S (executes s)) []
                      (Var.set_nullifier_count (PyInt n) (vars s)) (server s) in
      if bool_decide (n > 0) then
        match execute_error w (S (executes s)) with
        | Some msg => failed SQL_RECENT_NULLIFIERS msg s1
        | None =>
            (inr (),
             State (trace s1 ++ [Execute SQL_RECENT_NULLIFIERS;
                                 Print "📝 Recent nullifiers:"]
                      ++ (Print ∘ nullifier_line sd <$> recent_nullifier_rows (server s)))
                   (S (S (executes s))) []
                   (Var.set_recent_nullifiers (select_recent_nullifiers (server s)) (vars s1))
                   (server s))
        end
      else (inr (), s1)
  end.
Proof.
  unfold check_nullifiers.
  rewrite bind_run, (cur_execute_run _ _ _ _ (pg_execute_nullifier_count _)).
  destruct (execute_error w (executes s)) as [msg|] eqn:E0; [done|].
  repeat (rewrite bind_run; cbn).
  rewrite <- !app_assoc. cbn.
  case_bool_decide; [|done].
  rewrite bind_run, (cur_execute_run _ _ _ _ (pg_execute_recent_nullifiers _)). cbn.
  destruct (execute_error w (S (executes s))) as [msg|] eqn:E1.
  { unfold failed. cbn. by rewrite <- !app_assoc. }
  repeat (rewrite bind_run; cbn).
  unfold select_recent_nullifiers.
  rewrite (for_each_print _ (nullifier_line sd)) by done.
  cbn. by rewrite <- !app_assoc.
Qed.

Lemma check_ads_state_commits_run sd w s :
  check_ads_state_commits sd w s =
  match execute_error w (executes s) with
  | Some msg => failed SQL_COMMIT_COUNT msg s
  | None =>
      let n := count_star (ads_state_commits (server s)) in
      let s1 := State (trace s ++ [Execute SQL_COMMIT_COUNT;
                                   Print ("📊 ADS state commits: " +:+ pretty n)])
                      (S (executes s)) []
                      (Var.set_commit_count (PyInt n) (vars s)) (server s) in
      if bool_decide (n > 0) then
        match execute_error w (S (executes s)) with
        | Some msg => failed SQL_RECENT_COMMITS msg s1
        | None =>
            (inr (),
             State (trace s1 ++ [Execute SQL_RECENT_COMMITS;
                                 Print "📝 Recent ADS commits:"]
                      ++ (Print ∘ commit_line sd <$> recent_commit_rows (server s)))
                   (S (S (executes s))) []
                   (Var.set_recent_commits (select_recent_commits (server s)) (vars s1))
                   (server s))
        end
      else (inr (), s1)
  end.
Proof.
  unfold check_ads_state_commits.
  rewrite bind_run, (cur_execute_run _ _ _ _ (pg_execute_commit_count _)).
  destruct (execute_error w (executes s)) as [msg|] eqn:E0; [done|].
  repeat (rewrite bind_run; cbn).
  rewrite <- !app_assoc. cbn.
  case_bool_decide; [|done].
  rewrite bind_run, (cur_execute_run _ _ _ _ (pg_execute_recent_commits _)). cbn.
  destruct (execute_error w (S (executes s))) as [msg|] eqn:E1.
  { unfold failed. cbn. by rewrite <- !app_assoc. }
  repeat (rewrite bind_run; cbn).
  unfold select_recent_commits.
  rewrite (for_each_print _ (commit_line sd)) by done.
  cbn. by rewrite <- !app_assoc.
Qed.

Lemma check_tree_state_run sd w s :
  check_tree_state sd w s =
  match execute_error w (executes s) with
  | Some msg => failed SQL_TREE_STATE msg s
  | None =>
      (inr (),
       State (trace s ++ tree_section sd (server s)) (S (executes s))
             (tail (select_tree_state (server s)))
             (Var.set_tree_state (head (select_tree_state (server s))) (vars s))
             (server s))
  end.
Proof.
  unfold check_tree_state.
  rewrite bind_run, (cur_execute_run _ _ _ _ (pg_execute_tree_state _)).
  destruct (execute_error w (executes s)) as [msg|] eqn:E0; [done|].
  unfold tree_section, select_tree_state.
  destruct (default_tree_rows (server s)) as [|r rows];
    repeat (rewrite bind_run; cbn); unfold print, emit; cbn; by rewrite <- ?app_assoc.
Qed.

Lemma check_recent_batches_run sd w s :
  check_recent_batches sd w s =
  match execute_error w (executes s) with
  | Some msg => failed SQL_RECENT_BATCHES msg s
  | None =>
      (inr (),
       State (trace s ++ batch_section sd (server s)) (S (executes s)) []
             (Var.set_recent_batches (select_recent_batches (server s)) (vars s))
             (server s))
  end.
Proof.
  unfold check_recent_batches.
  rewrite bind_run, (cur_execute_run _ _ _ _ (pg_execute_recent_batches _)).
  destruct (execute_error w (executes s)) as [msg|] eqn:E0; [done|].
  repeat (rewrite bind_run; cbn).
  unfold select_recent_batches.
  rewrite (for_each_print _ (batch_line sd)) by done.
  unfold batch_section. cbn. by rewrite <- !app_assoc.
Qed.

(** ** The whole script

    [run_script] steps through the script, splitting on each statement
    that may fail and on each count. *)

Lemma through_execute_rows {A} (fmt : A → string) (rows : list A) l k :
  through_execute ((Print ∘ fmt <$> rows) ++ l) k
  = (Print ∘ fmt <$> rows) ++ through_execute l k.
Proof. induction rows as [|x rows IH]; [done|]. cbn. by rewrite IH. Qed.

Local Arguments check_nullifiers : simpl never.
Local Arguments check_ads_state_commits : simpl never.
Local Arguments check_tree_state : simpl never.
Local Arguments check_recent_batches : simpl never.

Ltac run_script :=
  repeat first
    [ rewrite check_nullifiers_run
    | rewrite check_ads_state_commits_run
    | rewrite check_tree_state_run
    | rewrite check_recent_batches_run
    | rewrite bind_run
    | progress cbn
    | match goal with
      | H : execute_error ?w ?k = _ |- context [execute_error ?w ?k] => rewrite H
      | |- context [execute_error ?w ?k] => destruct (execute_error w k) eqn:?
      end
    | case_bool_decide ].

Lemma script_run sd w :
  ∃ n rows,
    script sd w (initial w)
    = (inr (), State (expected_trace sd w) n rows (expected_vars w) (db w)).
Proof.
  unfold script, try_except, try_body, expected_trace, expected_vars, full_trace,
    plan, assignments, nullifier_section, commit_section, psycopg2_connect,
    except_handler.
  destruct (connect_error w) as [cmsg|] eqn:Hc.
  { run_script. by eexists _, _. }
  run_script.
  all: eexists _, _; unfold print, emit, handler_lines; cbn; f_equal; f_equal.
  all: repeat first
         [ rewrite through_execute_rows | rewrite <- app_assoc | progress cbn ].
  all: done.
Qed.

Lemma main_exit_code sd w : exit_code (main sd w) = 0.
Proof. unfold main. by destruct (script_run sd w) as (n & rows & ->). Qed.

Lemma main_trace sd w : trace (final (main sd w)) = expected_trace sd w.
Proof. unfold main. by destruct (script_run sd w) as (n & rows & ->). Qed.

Lemma main_vars sd w : vars (final (main sd w)) = expected_vars w.
Proof. unfold main. by destruct (script_run sd w) as (n & rows & ->). Qed.

(** [failure] tells when the [try] block raises, and what. *)
Lemma raised_failure sd w : raised sd w = Exn Psycopg2Error <$> failure w.
Proof.
  unfold raised, failure, try_body, plan, psycopg2_connect.
  destruct (connect_error w) as [cmsg|] eqn:Hc.
  { by run_script. }
  run_script; by unfold failed.
Qed.

Lemma raised_none sd w : raised sd w = None → failure w = None.
Proof. rewrite raised_failure. by destruct (failure w). Qed.

Lemma raised_some sd w e : raised sd w = Some e → failure w = Some (exn_str e).
Proof. rewrite raised_failure. destruct (failure w); by intros [= <-]. Qed.

(** ** Facts about the closed form *)

Lemma first_error_spec f from n k msg :
  first_error f from n = Some (k, msg) →
  (from ≤ k < from + n)%nat ∧ f k = Some msg
  ∧ ∀ j, (from ≤ j < k)%nat → f j = None.
Proof.
  revert from. induction n as [|n IH]; intros from; cbn; [done|].
  destruct (f from) as [m|] eqn:E.
  - intros [= <- <-]. repeat split; [lia..|done|]. intros j ?; lia.
  - intros H. destruct (IH _ H) as (? & ? & Hj). repeat split; [lia..|done|].
    intros j ?. destruct (decide (j = from)) as [->|]; [done|]. apply Hj. lia.
Qed.

Lemma first_error_none f from n :
  (∀ k, f k = None) → first_error f from n = None.
Proof.
  intros H. revert from. induction n as [|n IH]; intros from; cbn; [done|].
  by rewrite H.
Qed.

Lemma statements_app l1 l2 : statements (l1 ++ l2) = statements l1 ++ statements l2.
Proof. apply omap_app. Qed.

Lemma statements_rows {A} (fmt : A → string) (rows : list A) :
  statements (Print ∘ fmt <$> rows) = [].
Proof. by induction rows. Qed.

Lemma stdout_app l1 l2 : stdout (l1 ++ l2) = stdout l1 ++ stdout l2.
Proof. apply omap_app. Qed.

Lemma statements_full_trace sd w : statements (full_trace sd w) = plan (db w).
Proof.
  unfold full_trace, nullifier_section, commit_section, tree_section,
    batch_section, plan.
  repeat case_bool_decide;
    rewrite ?statements_app, ?statements_rows; cbn;
    by rewrite ?statements_app, ?statements_rows.
Qed.

Lemma statements_through_execute l k :
  statements (through_execute l k) = take (S k) (statements l).
Proof.
  revert k. induction l as [|ev l IH]; intros k; [done|].
  destruct ev; cbn; try apply IH.
  destruct k; cbn; [by rewrite take_0|]. by rewrite IH.
Qed.

Lemma through_execute_prefix l k : through_execute l k `prefix_of` l.
Proof.
  revert k. induction l as [|ev l IH]; intros k; [done|].
  destruct ev; cbn; try by apply prefix_cons.
  destruct k; [|by apply prefix_cons].
  apply (prefix_app [Execute sql] [] l), prefix_nil.
Qed.

Lemma statements_expected sd w :
  statements (expected_trace sd w) =
  match connect_error w with
  | Some _ => []
  | None =>
      match first_error (execute_error w) 0 (length (plan (db w))) with
      | Some (k, _) => take (S k) (plan (db w))
      | None => plan (db w)
      end
  end.
Proof.
  unfold expected_trace. destruct (connect_error w); [done|].
  destruct (first_error _ _ _) as [[k msg]|]; [|apply statements_full_trace].
  rewrite statements_app, statements_through_execute, statements_full_trace.
  cbn. by rewrite app_nil_r.
Qed.

(** [each_run] splits a goal about the closed form by the kind of run,
    [each_index] by the position of the failing statement. *)
Ltac each_run w :=
  unfold failure, expected_vars, expected_trace in *;
  destruct (connect_error w) as [?cmsg|] eqn:?Hconn;
  [|let E := fresh "E" in
    destruct (first_error (execute_error w) 0 (length (plan (db w))))
      as [[?k ?msg]|] eqn:E;
    [apply first_error_spec in E as (?Hk & ?Hmsg & ?Hbefore)|]];
  unfold full_trace, nullifier_section, commit_section, batch_section,
    plan, assignments in *;
  repeat case_bool_decide; cbn in *.

Ltac each_index k := do 7 (try destruct k as [|k]); cbn in *; try lia.

Lemma expected_trace_cases sd w :
  (failure w = None → expected_trace sd w = full_trace sd w)
  ∧ (∀ msg, failure w = Some msg →
       ∃ pre, expected_trace sd w = pre ++ handler_lines w msg).
Proof.
  unfold failure, expected_trace.
  destruct (connect_error w) as [cmsg|]; [split; [done|]|].
  { intros ? [= <-]. by exists [Connect (database_url w)]. }
  destruct (first_error _ _ _) as [[k kmsg]|]; (split; [done|]); [|done].
  intros ? [= <-]. by exists (through_execute (full_trace sd w) k).
Qed.

(** ** The claims *)

(** C1.  For every database state: when the count query for active
    nullifiers returned 0 (the script's [nullifier_count] is 0), the only
    statement about nullifiers the run sent is that count query, once, and
    the detail query was never sent; likewise for [commit_count] and the
    state commits. *)
Theorem zero_count_skips_detail_query sd w :
  let run := final (main sd w) in
  (Var.nullifier_count (vars run) = Some (PyInt 0) →
   filter (.∈ [SQL_NULLIFIER_COUNT; SQL_RECENT_NULLIFIERS]) (statements (trace run))
   = [SQL_NULLIFIER_COUNT])
  ∧ (Var.commit_count (vars run) = Some (PyInt 0) →
     filter (.∈ [SQL_COMMIT_COUNT; SQL_RECENT_COMMITS]) (statements (trace run))
     = [SQL_COMMIT_COUNT]).
Proof.
  cbn zeta. rewrite main_trace, main_vars, statements_expected.
  each_run w; try each_index k.
  all: split; intros ?; simplify_eq; try lia; by vm_compute.
Qed.

Lemma zero_count_skips_detail_query_witness :
  let run := final (main pretty (World ∅ None never empty_db)) in
  filter (.∈ [SQL_NULLIFIER_COUNT; SQL_RECENT_NULLIFIERS]) (statements (trace run))
  = [SQL_NULLIFIER_COUNT]
  ∧ filter (.∈ [SQL_COMMIT_COUNT; SQL_RECENT_COMMITS]) (statements (trace run))
    = [SQL_COMMIT_COUNT].
Proof.
  destruct (zero_count_skips_detail_query pretty (World ∅ None never empty_db))
    as [Hn Hc].
  split; [apply Hn | apply Hc]; reflexivity.
Defined.

Lemma expected_vars_sound w :
  let g := expected_vars w in
  let d := db w in
  (∀ l, Var.recent_nullifiers g = Some l → l = select_recent_nullifiers d)
  ∧ (∀ l, Var.recent_commits g = Some l → l = select_recent_commits d)
  ∧ (∀ t, Var.tree_state g = Some t → t = head (select_tree_state d))
  ∧ (∀ l, Var.recent_batches g = Some l → l = select_recent_batches d).
Proof.
  cbn zeta. each_run w; try each_index k.
  all: repeat split; intros; by simplify_eq.
Qed.

Lemma StronglySorted_take {A} (R : relation A) n l :
  StronglySorted R l → StronglySorted R (take n l).
Proof.
  intros H. rewrite <- (take_drop n l) in H. by apply StronglySorted_app_1_l in H.
Qed.

Section recent.
Context {A : Type} (key : A → Z).

Lemma recent_length (l : list A) : (length (limit 3 (order_by_desc key l)) ≤ 3)%nat.
Proof. unfold limit. rewrite length_take. lia. Qed.

Lemma recent_sorted (l : list A) :
  StronglySorted (newest_first key) (limit 3 (order_by_desc key l)).
Proof. apply StronglySorted_take, StronglySorted_merge_sort; apply _. Qed.

Lemma recent_subset (l : list A) : limit 3 (order_by_desc key l) ⊆ l.
Proof.
  intros x Hx. apply subseteq_take in Hx.
  unfold order_by_desc in Hx. by rewrite merge_sort_Permutation in Hx.
Qed.
End recent.

(** C2.  For every database state, each detail result the script binds
    ([recent_nullifiers], [recent_commits], [recent_batches]) is the tuples
    of at most 3 rows of its table, ordered by creation time, newest
    first. *)
Theorem recent_results_bounded_and_sorted sd w :
  let g := vars (final (main sd w)) in
  (∀ l, Var.recent_nullifiers g = Some l →
        recent_of Nullifier.created_at Nullifier.to_tuple (nullifiers (db w)) l)
  ∧ (∀ l, Var.recent_commits g = Some l →
          recent_of AdsStateCommit.created_at AdsStateCommit.to_tuple
                    (ads_state_commits (db w)) l)
  ∧ (∀ l, Var.recent_batches g = Some l →
          recent_of ProofBatch.created_at ProofBatch.to_tuple (proof_batches (db w)) l).
Proof.
  cbn zeta. rewrite main_vars.
  destruct (expected_vars_sound w) as (Hn & Hc & _ & Hb).
  split_and!; intros l Hl.
  - apply Hn in Hl as ->. exists (recent_nullifier_rows (db w)).
    unfold select_recent_nullifiers, recent_nullifier_rows.
    rewrite length_fmap. split_and!; [done|apply recent_length|apply recent_sorted|].
    etrans; [apply recent_subset|]. unfold active_nullifiers.
    intros x. rewrite list_elem_of_filter. tauto.
  - apply Hc in Hl as ->. exists (recent_commit_rows (db w)).
    unfold select_recent_commits, recent_commit_rows.
    rewrite length_fmap.
    split_and!; [done|apply recent_length|apply recent_sorted|apply recent_subset].
  - apply Hb in Hl as ->. exists (recent_batch_rows (db w)).
    unfold select_recent_batches, recent_batch_rows.
    rewrite length_fmap.
    split_and!; [done|apply recent_length|apply recent_sorted|apply recent_subset].
Qed.

Lemma recent_results_bounded_and_sorted_witness :
  recent_of Nullifier.created_at Nullifier.to_tuple (nullifiers demo_db)
            (select_recent_nullifiers demo_db)
  ∧ recent_of AdsStateCommit.created_at AdsStateCommit.to_tuple
              (ads_state_commits demo_db) (select_recent_commits demo_db)
  ∧ recent_of ProofBatch.created_at ProofBatch.to_tuple (proof_batches demo_db)
              (select_recent_batches demo_db).
Proof.
  destruct (recent_results_bounded_and_sorted pretty (quiet demo_db))
    as (Hn & Hc & Hb).
  split_and!; [apply Hn | apply Hc | apply Hb]; reflexivity.
Defined.

Lemma string_app_nil_r (s : string) : s +:+ "" = s.
Proof.
  induction s as [|c s IH]; [done|].
  change (String c (s +:+ "") = String c s). by rewrite IH.
Qed.

Lemma contains_suffix (pre s : string) : contains s (pre +:+ s).
Proof. exists pre, "". by rewrite string_app_nil_r. Qed.

(** C3.  When [psycopg2.connect] raises, the run is the connection attempt
    followed by the two lines of the handler, the last of which contains
    the connection string that was tried; no statement is sent. *)
Theorem connect_failure_reports_target sd w msg :
  connect_error w = Some msg →
  let run := final (main sd w) in
  trace run =
    [Connect (database_url w);
     Print ("❌ Error connecting to database: " +:+ msg);
     Print ("💡 Make sure DATABASE_URL is set correctly: " +:+ database_url w)]
  ∧ statements (trace run) = []
  ∧ ∃ line, last (stdout (trace run)) = Some line ∧ contains (database_url w) line.
Proof.
  intros Hc. cbn zeta. rewrite main_trace. unfold expected_trace. rewrite Hc.
  split_and!; [done..|].
  eexists. split; [done|]. apply contains_suffix.
Qed.

Lemma connect_failure_reports_target_witness :
  connect_error unreachable = Some "connection refused"
  ∧ trace (final (main pretty unreachable)) =
      [Connect "postgres://ads@db.internal:5432/ads";
       Print "❌ Error connecting to database: connection refused";
       Print "💡 Make sure DATABASE_URL is set correctly: postgres://ads@db.internal:5432/ads"].
Proof.
  split; [reflexivity|].
  apply (connect_failure_reports_target pretty unreachable "connection refused").
  reflexivity.
Defined.

(** C4.  When the lookup of the tree state of ["default"] returned no row
    (the script's [tree_state] is [None]), the run printed the not-found
    line right after that query, sent the proof-batches query next, and
    the process exits with status 0; when nothing else fails the run ends
    by closing the connection. *)
Theorem missing_tree_state_is_not_fatal sd w :
  let out := main sd w in
  Var.tree_state (vars (final out)) = Some None →
  exit_code out = 0
  ∧ (raised sd w = None → last (trace (final out)) = Some ConnectionClose)
  ∧ ∃ pre post,
      trace (final out) =
        pre ++ [Execute SQL_TREE_STATE; Print "❌ No default tree state found";
                Execute SQL_RECENT_BATCHES] ++ post.
Proof.
  cbn zeta. rewrite main_trace, main_vars. intros Htree.
  split; [apply main_exit_code|]. split.
  { intros Hf%raised_none. rewrite (proj1 (expected_trace_cases sd w) Hf).
    unfold full_trace.
    change [CursorClose; ConnectionClose] with ([CursorClose] ++ [ConnectionClose]).
    by rewrite !app_assoc, last_snoc. }
  exists ([Connect (database_url w); Cursor; Print "🔍 Checking ADS table contents..."]
          ++ nullifier_section sd (db w) ++ commit_section sd (db w)).
  unfold nullifier_section, commit_section, tree_section, select_tree_state in *.
  each_run w; try each_index k; simplify_eq.
  all: unfold select_tree_state in *;
    destruct (default_tree_rows (db w)); cbn in *; simplify_eq.
  all: eexists;
    repeat first [rewrite through_execute_rows | rewrite <- app_assoc | progress cbn];
    reflexivity.
Qed.

Lemma missing_tree_state_is_not_fatal_witness :
  Var.tree_state (vars (final (main pretty (quiet empty_db)))) = Some None
  ∧ exit_code (main pretty (quiet empty_db)) = 0.
Proof.
  split; [reflexivity|].
  apply (missing_tree_state_is_not_fatal pretty (quiet empty_db)). reflexivity.
Defined.

(** C5.  A run whose [try] block raises nothing (normal completion) ends
    by closing the connection and exits with status 0; this includes the
    run in which no tree state of ["default"] exists, where the not-found
    line is printed.  A run whose [try] block raises (the connection or a
    statement failed) takes the failure path, which is implicit: the script
    sets no exit status of its own; the handler prints the error and the
    hint as the last two lines and the run ends there. *)
Theorem exit_status_and_failure_path sd w :
  let out := main sd w in
  (raised sd w = None →
     exit_code out = 0 ∧ last (trace (final out)) = Some ConnectionClose)
  ∧ (raised sd w = None → default_tree_rows (db w) = [] →
       exit_code out = 0
       ∧ "❌ No default tree state found" ∈ stdout (trace (final out)))
  ∧ (∀ e, raised sd w = Some e →
       ∃ pre, trace (final out) = pre ++ handler_lines w (exn_str e)).
Proof.
  cbn zeta. rewrite main_trace.
  destruct (expected_trace_cases sd w) as [Hok Hfail].
  split_and!.
  - intros Hf%raised_none. split; [apply main_exit_code|].
    rewrite (Hok Hf). unfold full_trace.
    change [CursorClose; ConnectionClose] with ([CursorClose] ++ [ConnectionClose]).
    by rewrite !app_assoc, last_snoc.
  - intros Hf%raised_none Hrows. split; [apply main_exit_code|].
    rewrite (Hok Hf). unfold full_trace, tree_section. rewrite Hrows, !stdout_app.
    do 3 (apply elem_of_app; right). apply elem_of_app; left. cbn. left.
  - intros e He%raised_some. auto.
Qed.

Lemma exit_status_and_failure_path_witness :
  (exit_code (main pretty (quiet empty_db)) = 0
   ∧ "❌ No default tree state found"
     ∈ stdout (trace (final (main pretty (quiet empty_db)))))
  ∧ ∃ pre, trace (final (main pretty unreachable))
           = pre ++ handler_lines unreachable "connection refused".
Proof.
  destruct (exit_status_and_failure_path pretty (quiet empty_db))
    as (_ & Hmissing & _).
  destruct (exit_status_and_failure_path pretty unreachable) as (_ & _ & Hfail).
  split.
  - apply Hmissing; reflexivity.
  - destruct (raised pretty unreachable) as [e|] eqn:He; [|discriminate He].
    injection He as <-. apply (Hfail _ eq_refl).
Defined.

Lemma main_server sd w : server (final (main sd w)) = db w.
Proof. unfold main. by destruct (script_run sd w) as (n & rows & ->). Qed.

Lemma read_only_leaves_the_tables (d : database) (sql : string) :
  read_only sql = true → (pg_execute d sql).2 = d.
Proof.
  unfold read_only, pg_execute.
  destruct (parse sql) as [[proj table cond order lim|table cond]|]; [|done..].
  by destruct (exec_select d proj table cond order lim).
Qed.

Lemma side_effects_of_reads (tr : list event) :
  Forall (λ sql, read_only sql = true) (statements tr) →
  side_effects tr = Print <$> stdout tr.
Proof.
  induction tr as [|ev tr IH]; [done|].
  destruct ev as [dsn| |sql|line| |]; cbn; try exact IH.
  - intros [Hsql Htr]%Forall_cons. rewrite Hsql. by apply IH.
  - intros Htr. f_equal. by apply IH.
Qed.

(** The server of the model can be written to, and tells the statements
    that write from those that read. *)
Example delete_changes_the_tables :
  (pg_execute demo_db "DELETE FROM ads_state_commits").2
  = Database (nullifiers demo_db) [] (tree_state demo_db) (proof_batches demo_db)
  ∧ read_only "DELETE FROM ads_state_commits" = false
  ∧ read_only "SELECT * INTO nullifiers_copy FROM nullifiers" = false
  ∧ read_only "SELECT setval('batch_seq', 1)" = false
  ∧ read_only "SELECT id FROM proof_batches FOR UPDATE" = false
  ∧ read_only "SELECT id FROM proof_batches; DELETE FROM proof_batches" = false.
Proof. by vm_compute. Qed.

(** C6.  For every world and every run: every statement the run sends is
    one the server takes for a plain [SELECT], which leaves the tables as
    they are; when the run ends the content of the tables is what it was
    when the run started; and besides handling the connection and reading,
    all the run does is print its lines on standard output. *)
Theorem every_statement_is_read_only sd w :
  let run := final (main sd w) in
  Forall (λ sql, read_only sql = true ∧ ∀ d, (pg_execute d sql).2 = d)
         (statements (trace run))
  ∧ server run = db w
  ∧ side_effects (trace run) = Print <$> stdout (trace run).
Proof.
  cbn zeta.
  assert (Forall (λ sql, read_only sql = true)
                 (statements (trace (final (main sd w))))) as Hreads.
  { rewrite main_trace, statements_expected.
    each_run w; try each_index k.
    all: repeat first [apply Forall_nil_2 | apply Forall_cons_2; [by vm_compute|]]. }
  split_and!.
  - eapply Forall_impl; [exact Hreads|].
    intros sql Hsql. split; [done|]. intros d. by apply read_only_leaves_the_tables.
  - apply main_server.
  - by apply side_effects_of_reads.
Qed.

Lemma actions_rows {A} (fmt : A → string) (rows : list A) l :
  actions ((Print ∘ fmt <$> rows) ++ l) = actions l.
Proof. induction rows as [|x rows IH]; [done|]. apply IH. Qed.

Ltac normalise_trace :=
  repeat first
    [ rewrite through_execute_rows | rewrite actions_rows
    | rewrite <- app_assoc | progress cbn ].

(** C7.  Leaving the printed lines aside, a run whose [try] block raises
    nothing connects, opens the cursor, sends the statements of [plan] in order
    (nullifiers, state commits, tree state, proof batches), closes the
    cursor and closes the connection.  A run whose [try] block raises
    follows the same order up to the failure and ends with the two lines
    of the handler. *)
Theorem control_flow_is_linear sd w :
  let run := final (main sd w) in
  (raised sd w = None →
   actions (trace run) =
     [Connect (database_url w); Cursor] ++ (Execute <$> plan (db w))
     ++ [CursorClose; ConnectionClose])
  ∧ (∀ e, raised sd w = Some e →
       ∃ pre, trace run = pre ++ handler_lines w (exn_str e)
              ∧ actions pre `prefix_of`
                  [Connect (database_url w); Cursor] ++ (Execute <$> plan (db w))).
Proof.
  cbn zeta. rewrite main_trace. split.
  - intros Hf%raised_none. each_run w; simplify_eq. all: by normalise_trace.
  - intros e Hf%raised_some. revert Hf. generalize (exn_str e). intros msg Hf.
    unfold failure in Hf. unfold expected_trace.
    destruct (connect_error w) as [cmsg|]; simplify_eq.
    { exists [Connect (database_url w)]. split; [done|]. by apply prefix_cons, prefix_nil. }
    destruct (first_error _ _ _) as [[k kmsg]|] eqn:E; cbn in Hf; simplify_eq.
    exists (through_execute (full_trace sd w) k). split; [done|].
    apply first_error_spec in E as (Hk & _ & _).
    unfold full_trace, nullifier_section, commit_section, batch_section, plan in *.
    repeat case_bool_decide; cbn in Hk; each_index k; normalise_trace.
    all: eexists; reflexivity.
Qed.

Lemma control_flow_is_linear_witness :
  actions (trace (final (main pretty (quiet demo_db)))) =
    [Connect DEFAULT_DATABASE_URL; Cursor; Execute SQL_NULLIFIER_COUNT;
     Execute SQL_RECENT_NULLIFIERS; Execute SQL_COMMIT_COUNT;
     Execute SQL_RECENT_COMMITS; Execute SQL_TREE_STATE;
     Execute SQL_RECENT_BATCHES; CursorClose; ConnectionClose].
Proof.
  apply (proj1 (control_flow_is_linear pretty (quiet demo_db))). reflexivity.
Defined.

(** C8.  In a run whose [try] block raises nothing, whatever the tables
    hold, the
    proof-batches query is the last statement sent, and its result is the
    3 newest rows of the whole table.  When the table is empty the result
    is the empty sequence and nothing is printed between the heading of
    the section and the closes. *)
Theorem batches_are_fetched_without_guard sd w :
  raised sd w = None →
  let run := final (main sd w) in
  last (statements (trace run)) = Some SQL_RECENT_BATCHES
  ∧ Var.recent_batches (vars run) =
      Some (ProofBatch.to_tuple
              <$> limit 3 (order_by_desc ProofBatch.created_at (proof_batches (db w))))
  ∧ (proof_batches (db w) = [] →
       Var.recent_batches (vars run) = Some []
       ∧ ∃ pre, trace run =
                  pre ++ [Execute SQL_RECENT_BATCHES; Print "📝 Recent batches:";
                          CursorClose; ConnectionClose]).
Proof.
  intros Hf%raised_none. cbn zeta. rewrite main_trace, main_vars, statements_expected.
  assert (expected_trace sd w = full_trace sd w
          ∧ Var.recent_batches (expected_vars w) = Some (select_recent_batches (db w)))
    as [Htrace Hvars].
  { each_run w; by simplify_eq. }
  rewrite Hvars. split_and!.
  - each_run w; by simplify_eq.
  - done.
  - intros Hempty. unfold select_recent_batches, recent_batch_rows.
    rewrite Hempty. split; [done|].
    rewrite Htrace. unfold full_trace, batch_section, recent_batch_rows.
    rewrite Hempty. cbn.
    exists ([Connect (database_url w); Cursor; Print "🔍 Checking ADS table contents..."]
            ++ nullifier_section sd (db w) ++ commit_section sd (db w)
            ++ tree_section sd (db w)).
    by rewrite <- !app_assoc.
Qed.

Lemma batches_are_fetched_without_guard_witness :
  raised pretty (quiet empty_db) = None
  ∧ last (statements (trace (final (main pretty (quiet empty_db)))))
    = Some SQL_RECENT_BATCHES
  ∧ Var.recent_batches (vars (final (main pretty (quiet empty_db)))) = Some [].
Proof.
  split; [reflexivity|].
  destruct (batches_are_fetched_without_guard pretty (quiet empty_db))
    as (Hlast & _ & Hempty); [reflexivity|].
  split; [exact Hlast|]. apply Hempty. reflexivity.
Defined.

Lemma head_expected_trace sd w :
  head (expected_trace sd w) = Some (Connect (database_url w)).
Proof.
  unfold expected_trace. destruct (connect_error w); [done|].
  by destruct (first_error _ _ _) as [[k msg]|].
Qed.

(** C9.  A run starts by connecting: to
    [postgres://postgres@localhost:5432/postgres] when [DATABASE_URL] is
    not in the environment, to its value when it is. *)
Theorem database_url_defaults_when_unset sd w :
  let run := final (main sd w) in
  (environ w !! "DATABASE_URL" = None →
   head (trace run) = Some (Connect "postgres://postgres@localhost:5432/postgres"))
  ∧ (∀ url, environ w !! "DATABASE_URL" = Some url →
       head (trace run) = Some (Connect url)).
Proof.
  cbn zeta. rewrite main_trace, head_expected_trace. unfold database_url.
  split; [intros ->|intros url ->]; done.
Qed.

Lemma database_url_defaults_when_unset_witness :
  head (trace (final (main pretty (quiet demo_db))))
  = Some (Connect "postgres://postgres@localhost:5432/postgres")
  ∧ head (trace (final (main pretty unreachable)))
    = Some (Connect "postgres://ads@db.internal:5432/ads").
Proof.
  split.
  - apply (proj1 (database_url_defaults_when_unset pretty (quiet demo_db))).
    reflexivity.
  - apply (proj2 (database_url_defaults_when_unset pretty unreachable)).
    reflexivity.
Defined.

Lemma first_error_intro f from n k msg :
  (from ≤ k < from + n)%nat → f k = Some msg →
  (∀ j, (from ≤ j < k)%nat → f j = None) →
  first_error f from n = Some (k, msg).
Proof.
  revert from. induction n as [|n IH]; intros from Hk Hmsg Hbefore; [lia|].
  cbn. destruct (decide (from = k)) as [->|Hne]; [by rewrite Hmsg|].
  rewrite Hbefore by lia. apply IH; [lia|done|]. intros j ?. apply Hbefore. lia.
Qed.

Lemma trace_without_failures sd w :
  trace (final (main sd (without_failures w))) = full_trace sd w.
Proof.
  rewrite main_trace. unfold expected_trace. cbn.
  by rewrite first_error_none.
Qed.

Lemma query_failure_trace sd w k msg :
  connect_error w = None →
  (k < length (plan (db w)))%nat →
  execute_error w k = Some msg →
  (∀ j, (j < k)%nat → execute_error w j = None) →
  trace (final (main sd w)) = through_execute (full_trace sd w) k ++ handler_lines w msg.
Proof.
  intros Hc Hk Hmsg Hbefore. rewrite main_trace. unfold expected_trace.
  rewrite Hc. rewrite (first_error_intro _ _ _ k msg); [done|lia|done|].
  intros j ?. apply Hbefore. lia.
Qed.

Lemma rows_only_print {A} (fmt : A → string) (rows : list A) ev :
  ev ∈ (Print ∘ fmt <$> rows) → ∃ line, ev = Print line.
Proof. intros (x & -> & _)%list_elem_of_fmap. by eexists. Qed.

Ltac not_in_trace :=
  let Hin := fresh "Hin" in
  intros Hin;
  repeat first
    [ apply elem_of_cons in Hin as [?|Hin]; [done|]
    | apply elem_of_app in Hin as [[? ?]%rows_only_print|Hin]; [done|] ];
  by apply elem_of_nil in Hin.

Lemma no_close_before_the_end sd w k :
  (k < length (plan (db w)))%nat →
  (CursorClose ∉ through_execute (full_trace sd w) k)
  ∧ (ConnectionClose ∉ through_execute (full_trace sd w) k).
Proof.
  intros Hk.
  unfold full_trace, nullifier_section, commit_section, batch_section, plan in *.
  repeat case_bool_decide; cbn in Hk; each_index k; normalise_trace.
  all: split; not_in_trace.
Qed.

(** C10.  When the connection succeeds and the [k]-th statement is the
    first to raise, the run closes neither the cursor nor the connection.
    Its events are those of the run without failures up to and including
    the failing statement, followed by the two lines of the handler; so
    every line printed before the failure is on standard output, in
    order, before the error lines. *)
Theorem query_failure_skips_close sd w k msg :
  connect_error w = None →
  (k < length (plan (db w)))%nat →
  execute_error w k = Some msg →
  (∀ j, (j < k)%nat → execute_error w j = None) →
  let run := final (main sd w) in
  let smooth := final (main sd (without_failures w)) in
  (CursorClose ∉ trace run)
  ∧ (ConnectionClose ∉ trace run)
  ∧ trace run = through_execute (trace smooth) k ++ handler_lines w msg
  ∧ through_execute (trace smooth) k `prefix_of` trace smooth
  ∧ stdout (trace run) =
      stdout (through_execute (trace smooth) k)
      ++ ["❌ Error connecting to database: " +:+ msg;
          "💡 Make sure DATABASE_URL is set correctly: " +:+ database_url w].
Proof.
  intros Hc Hk Hmsg Hbefore. cbn zeta.
  rewrite trace_without_failures, (query_failure_trace sd w k msg) by done.
  destruct (no_close_before_the_end sd w k Hk) as [Hcur Hconn].
  split_and!.
  - rewrite elem_of_app. intros [?|Hin]; [done|]. revert Hin. not_in_trace.
  - rewrite elem_of_app. intros [?|Hin]; [done|]. revert Hin. not_in_trace.
  - done.
  - apply through_execute_prefix.
  - by rewrite stdout_app.
Qed.

Lemma query_failure_skips_close_witness :
  (CursorClose ∉ trace (final (main pretty flaky)))
  ∧ (ConnectionClose ∉ trace (final (main pretty flaky)))
  ∧ stdout (trace (final (main pretty flaky))) =
      ["🔍 Checking ADS table contents..."; "📊 Active nullifiers: 4";
       "📝 Recent nullifiers:"; "   Value: 12, Tree Index: 1, Created: 300";
       "   Value: 14, Tree Index: 3, Created: 250";
       "   Value: 11, Tree Index: 0, Created: 100";
       "❌ Error connecting to database: server closed the connection unexpectedly";
       "💡 Make sure DATABASE_URL is set correctly: postgres://postgres@localhost:5432/postgres"].
Proof.
  destruct (query_failure_skips_close pretty flaky 2
              "server closed the connection unexpectedly")
    as (Hcur & Hconn & _ & _ & Hout).
  - reflexivity.
  - vm_compute. lia.
  - reflexivity.
  - intros j Hj. destruct j as [|[|j]]; [reflexivity|reflexivity|lia].
  - split_and!; [exact Hcur|exact Hconn|]. rewrite Hout. reflexivity.
Defined.

(** ** Further properties of the script *)

Lemma stdout_rows {A} (fmt : A → string) (rows : list A) :
  stdout (Print ∘ fmt <$> rows) = fmt <$> rows.
Proof. induction rows as [|x rows IH]; [done|]. cbn. by f_equal. Qed.

(** X2.  The output of a run whose [try] block raises nothing, line by
    line: the banner; the active count and, when it is positive, a heading
    and one line per recent nullifier; the same for the state commits; the
    tree state of ["default"] or the not-found line; the heading of the
    batches and one line per recent batch. *)
Theorem output_of_a_run_without_failure sd w :
  raised sd w = None →
  let d := db w in
  let n := count_star (active_nullifiers d) in
  let c := count_star (ads_state_commits d) in
  stdout (trace (final (main sd w))) =
    ["🔍 Checking ADS table contents..."; "📊 Active nullifiers: " +:+ pretty n]
    ++ (if bool_decide (n > 0)
        then "📝 Recent nullifiers:" :: (nullifier_line sd <$> recent_nullifier_rows d)
        else [])
    ++ ["📊 ADS state commits: " +:+ pretty c]
    ++ (if bool_decide (c > 0)
        then "📝 Recent ADS commits:" :: (commit_line sd <$> recent_commit_rows d)
        else [])
    ++ [match default_tree_rows d with
        | r :: _ => tree_line sd r
        | [] => "❌ No default tree state found"
        end]
    ++ "📝 Recent batches:" :: (batch_line sd <$> recent_batch_rows d).
Proof.
  intros Hf%raised_none. cbn zeta.
  rewrite main_trace, (proj1 (expected_trace_cases sd w) Hf).
  unfold full_trace, nullifier_section, commit_section, tree_section, batch_section.
  repeat case_bool_decide; rewrite ?stdout_app, ?stdout_rows; cbn;
    rewrite ?stdout_app, ?stdout_rows; cbn; by rewrite ?app_nil_r.
Qed.

Lemma output_of_a_run_without_failure_witness :
  raised pretty (quiet demo_db) = None
  ∧ stdout (trace (final (main pretty (quiet demo_db)))) =
      ["🔍 Checking ADS table contents..."; "📊 Active nullifiers: 4";
       "📝 Recent nullifiers:"; "   Value: 12, Tree Index: 1, Created: 300";
       "   Value: 14, Tree Index: 3, Created: 250";
       "   Value: 11, Tree Index: 0, Created: 100";
       "📊 ADS state commits: 2"; "📝 Recent ADS commits:";
       "   Batch ID: 2, Created: 20"; "   Batch ID: 1, Created: 10";
       "📊 Tree state: 5 nullifiers, next index: 5, updated: 400";
       "📝 Recent batches:"; "   Batch 4: 7 txns, status: pending, created: 40";
       "   Batch 2: 3 txns, status: proven, created: 30";
       "   Batch 3: 1 txns, status: failed, created: 20"].
Proof.
  split; [reflexivity|].
  rewrite (output_of_a_run_without_failure pretty (quiet demo_db) eq_refl).
  reflexivity.
Defined.

Lemma limit_order_by_desc_newest {A} (key : A → Z) (to_tuple : A → tuple) (l : list A) :
  newest_of key to_tuple l (to_tuple <$> limit 3 (order_by_desc key l)).
Proof.
  exists (limit 3 (order_by_desc key l)), (drop 3 (order_by_desc key l)).
  unfold limit. split_and!.
  - done.
  - rewrite take_drop. unfold order_by_desc. by rewrite merge_sort_Permutation.
  - rewrite length_take. unfold order_by_desc.
    by rewrite (Permutation_length (merge_sort_Permutation _ l)).
  - intros r r' Hr Hr'.
    apply (StronglySorted_app_1_elem_of (newest_first key)
             (take 3 (order_by_desc key l)) (drop 3 (order_by_desc key l))); [|done..].
    rewrite take_drop. apply StronglySorted_merge_sort; apply _.
Qed.

(** X3.  Each detail result the script binds holds the [min 3 n] newest of
    the [n] rows it was selected from (the active nullifiers, all state
    commits, all proof batches): no row left out was created after a row
    shown. *)
Theorem recent_results_are_the_newest sd w :
  let g := vars (final (main sd w)) in
  (∀ l, Var.recent_nullifiers g = Some l →
        newest_of Nullifier.created_at Nullifier.to_tuple (active_nullifiers (db w)) l)
  ∧ (∀ l, Var.recent_commits g = Some l →
          newest_of AdsStateCommit.created_at AdsStateCommit.to_tuple
                    (ads_state_commits (db w)) l)
  ∧ (∀ l, Var.recent_batches g = Some l →
          newest_of ProofBatch.created_at ProofBatch.to_tuple (proof_batches (db w)) l).
Proof.
  cbn zeta. rewrite main_vars.
  destruct (expected_vars_sound w) as (Hn & Hc & _ & Hb).
  split_and!; intros l Hl.
  - apply Hn in Hl as ->. apply limit_order_by_desc_newest.
  - apply Hc in Hl as ->. apply limit_order_by_desc_newest.
  - apply Hb in Hl as ->. apply limit_order_by_desc_newest.
Qed.

Lemma recent_results_are_the_newest_witness :
  newest_of ProofBatch.created_at ProofBatch.to_tuple (proof_batches demo_db)
    [[PyInt 4; PyInt 7; PyStr "pending"; PyDatetime 40];
     [PyInt 2; PyInt 3; PyStr "proven"; PyDatetime 30];
     [PyInt 3; PyInt 1; PyStr "failed"; PyDatetime 20]].
Proof.
  apply (recent_results_are_the_newest pretty (quiet demo_db)). reflexivity.
Defined.





Ltac in_list := apply (bool_decide_unpack _); vm_compute; exact I.
Ltac not_in_list :=
  let H := fresh in intros H%(bool_decide_pack _); vm_compute in H; done.

(** X5.  The guards of lines 23 and 35: a detail result is bound only
    after a positive count, and is then not empty; in a run whose [try]
    block raises nothing a detail query is sent exactly when its count is
    positive. *)
Theorem detail_is_fetched_exactly_when_count_is_positive sd w :
  let run := final (main sd w) in
  let n := count_star (active_nullifiers (db w)) in
  let c := count_star (ads_state_commits (db w)) in
  (∀ l, Var.recent_nullifiers (vars run) = Some l →
        n > 0 ∧ l ≠ [] ∧ Var.nullifier_count (vars run) = Some (PyInt n))
  ∧ (∀ l, Var.recent_commits (vars run) = Some l →
          c > 0 ∧ l ≠ [] ∧ Var.commit_count (vars run) = Some (PyInt c))
  ∧ (raised sd w = None →
       (n > 0 ↔ SQL_RECENT_NULLIFIERS ∈ statements (trace run))
       ∧ (c > 0 ↔ SQL_RECENT_COMMITS ∈ statements (trace run))).
Proof.
  cbn zeta. rewrite main_trace, main_vars, statements_expected.
  assert (∀ {A} (key : A → Z) (f : A → tuple) (l : list A),
            count_star l > 0 → f <$> limit 3 (order_by_desc key l) ≠ []) as Hne.
  { intros A key f l Hl Hnil. apply (f_equal length) in Hnil.
    unfold limit, order_by_desc, count_star in *.
    rewrite length_fmap, length_take,
      (Permutation_length (merge_sort_Permutation _ l)) in Hnil.
    destruct (length l); [lia|]. cbn in Hnil. lia. }
  split_and!.
  - intros l Hl. each_run w; try each_index k; simplify_eq; try lia.
    all: split_and!; [done| by apply Hne |done].
  - intros l Hl. each_run w; try each_index k; simplify_eq; try lia.
    all: split_and!; [done| by apply Hne |done].
  - intros Hf%raised_none. each_run w; simplify_eq.
    all: split;
      first [ split; [intros _; in_list | done]
            | split; [intros ?; lia | not_in_list] ].
Qed.

(** X6.  No run sends a statement twice; a run sends at most 6 statements,
    and at least 4 when its [try] block raises nothing. *)
Theorem no_statement_is_sent_twice sd w :
  let sent := statements (trace (final (main sd w))) in
  NoDup sent
  ∧ (length sent ≤ 6)%nat
  ∧ (raised sd w = None → (4 ≤ length sent)%nat).
Proof.
  cbn zeta. rewrite main_trace, statements_expected. split_and!.
  - each_run w; try each_index k. all: in_list.
  - each_run w; try each_index k. all: cbn; lia.
  - intros Hf%raised_none. each_run w; simplify_eq. all: cbn; lia.
Qed.

Lemma detail_is_fetched_exactly_when_count_is_positive_witness :
  SQL_RECENT_NULLIFIERS ∈ statements (trace (final (main pretty (quiet demo_db))))
  ∧ ¬ (count_star (active_nullifiers empty_db) > 0).
Proof.
  destruct (detail_is_fetched_exactly_when_count_is_positive pretty (quiet demo_db))
    as (_ & _ & Hsent).
  destruct (detail_is_fetched_exactly_when_count_is_positive pretty (quiet empty_db))
    as (_ & _ & Hskipped).
  split.
  - apply Hsent; [reflexivity|]. vm_compute. reflexivity.
  - intros Hpos. apply Hskipped in Hpos; [|reflexivity].
    apply (bool_decide_pack _) in Hpos. vm_compute in Hpos. exact Hpos.
Defined.

Lemma omap_print_rows {A} (fmt : A → string) (rows : list A) :
  omap (λ ev, match ev with Print line => Some line | _ => None end)
       (Print ∘ fmt <$> rows) = fmt <$> rows.
Proof. apply stdout_rows. Qed.

Ltac normalise_stdout :=
  unfold stdout;
  repeat first
    [ rewrite through_execute_rows | rewrite omap_print_rows | rewrite omap_app
    | rewrite <- app_assoc | progress cbn ].

Ltac refute_line H :=
  unfold nullifier_line, commit_line, tree_line, batch_line in H;
  cbv [String.app String.append] in H; discriminate H.

Ltac line_not_printed :=
  let Hin := fresh "Hin" in
  let Heq := fresh "Heq" in
  intros Hin;
  repeat first
    [ apply elem_of_cons in Hin as [Heq|Hin]; [refute_line Heq|]
    | apply elem_of_app in Hin as [(? & Heq & _)%list_elem_of_fmap|Hin];
        [refute_line Heq|] ];
  by apply elem_of_nil in Hin.

Ltac line_printed :=
  repeat first
    [ apply list_elem_of_here
    | apply list_elem_of_further
    | apply elem_of_app; right ].

(** X7.  When the lookup of the tree state returned a row, it is a row of
    the table whose [tree_id] is ["default"], its line is printed, and
    the not-found line is printed nowhere in the run. *)
Theorem default_tree_state_is_reported sd w t :
  let run := final (main sd w) in
  Var.tree_state (vars run) = Some (Some t) →
  ∃ r, r ∈ tree_state (db w)
       ∧ TreeState.tree_id r = "default"
       ∧ t = TreeState.to_tuple r
       ∧ tree_line sd r ∈ stdout (trace run)
       ∧ "❌ No default tree state found" ∉ stdout (trace run).
Proof.
  cbn zeta. rewrite main_trace, main_vars. intros Htree.
  assert (∃ r rest, default_tree_rows (db w) = r :: rest ∧ t = TreeState.to_tuple r)
    as (r & rest & Hrows & ->).
  { destruct (expected_vars_sound w) as (_ & _ & Ht & _).
    apply Ht in Htree. unfold select_tree_state in Htree.
    destruct (default_tree_rows (db w)) as [|r rest]; [done|].
    exists r, rest. by simplify_eq/=. }
  exists r.
  assert (r ∈ default_tree_rows (db w)) as [? ?]%list_elem_of_filter
    by (rewrite Hrows; left).
  split_and!; [done..| |].
  - each_run w; try each_index k; simplify_eq.
    all: unfold tree_section; rewrite ?Hrows; normalise_stdout.
    all: line_printed.
  - each_run w; try each_index k; simplify_eq.
    all: unfold tree_section; rewrite ?Hrows; normalise_stdout.
    all: line_not_printed.
Qed.

Lemma default_tree_state_is_reported_witness :
  Var.tree_state (vars (final (main pretty (quiet demo_db))))
  = Some (Some [PyInt 5; PyInt 5; PyDatetime 400])
  ∧ ∃ r, r ∈ tree_state demo_db
         ∧ "📊 Tree state: 5 nullifiers, next index: 5, updated: 400"
           = tree_line pretty r.
Proof.
  split; [reflexivity|].
  destruct (default_tree_state_is_reported pretty (quiet demo_db)
              [PyInt 5; PyInt 5; PyDatetime 400])
    as (r & Hr & _ & Ht & _); [vm_compute; reflexivity|].
  exists r. split; [exact Hr|].
  destruct r as [id n i u]. injection Ht as <- <- <-. reflexivity.
Defined.
